(** * The BERT pipeline builder [pipelines/dsoaws/pipeline.py]

    The module defines one function, [get_pipeline], a straight-line body
    that declares fifteen pipeline parameters and then builds a processing
    step, an estimator, a training step, an evaluation step, a model-metrics
    descriptor, a registration step, a condition step and the pipeline
    aggregate out of SageMaker SDK descriptor objects.

    The embedding has two layers.
    - The descriptors: records for the SDK classes (which store the
      arguments they are given) and one definition per right-hand side of
      the body, a function of the values of the names that right-hand side
      reads.
    - The execution: the body as a list of statements run over a frame of
      local variables, with Python's name resolution (a name bound
      anywhere in the body is local to it; any other name is looked up in
      the module's globals, then in the builtins). *)

From Stdlib Require Import QArith Ascii String.
From stdpp Require Import gmap strings list pretty.

Local Open Scope string_scope.

(** ** Outcomes *)

Inductive exn :=
| NameError (name : string)
| UnboundLocalError (name : string)
| TypeError (what : string)
| IndexError (what : string)
| ValueError (what : string)
| ExternalError (what : string).

Inductive result (A : Type) :=
| Ok (a : A)
| Raise (e : exn).
Arguments Ok {A} a.
Arguments Raise {A} e.

(** What a call into a collaborator (boto3, os, the SDK's image registry)
    gives back: a value, or a failure of the collaborator's own. *)
Inductive external (A : Type) :=
| Done (a : A)
| Failed (what : string).
Arguments Done {A} a.
Arguments Failed {A} what.

(** ** Python values that occur as literals and defaults

    A float literal is kept as the rational its decimal text denotes. *)

Inductive pyprim :=
| PInt (z : Z)
| PFloat (q : Q)
| PStr (s : string)
| PBool (b : bool).

(** ** SDK descriptors *)

Inductive ParameterKind := KString | KInteger | KFloat.

Record PipelineParameter := {
  param_name : string;
  param_kind : ParameterKind;
  default_value : pyprim
}.

Definition ParameterString (name default : string) : PipelineParameter :=
  {| param_name := name; param_kind := KString; default_value := PStr default |}.
Definition ParameterInteger (name : string) (default : Z) : PipelineParameter :=
  {| param_name := name; param_kind := KInteger; default_value := PInt default |}.
Definition ParameterFloat (name : string) (default : Q) : PipelineParameter :=
  {| param_name := name; param_kind := KFloat; default_value := PFloat default |}.

(** A value handed to the SDK where it accepts either a plain value or
    something resolved when the pipeline runs: the parameter object itself,
    or [step.properties.<path>]. *)
Inductive pipeline_var :=
| Literal (v : pyprim)
| ParamRef (p : PipelineParameter)
| PropertyRef (step : string) (path : list string).

Record Session := { session_default_bucket : string }.

Record Processor := {
  framework_version : string;
  proc_role : string;
  proc_instance_type : pipeline_var;
  proc_instance_count : pipeline_var;
  env : list (string * string);
  max_runtime_in_seconds : Z
}.

Record ProcessingInput := {
  input_name : option string;
  source : pipeline_var;
  destination : string;
  s3_data_distribution_type : option string
}.

Record ProcessingOutput := {
  output_name : string;
  s3_upload_mode : string;
  output_source : string
}.

Record PropertyFile := {
  pf_name : string;
  pf_output_name : string;
  path : string
}.

Record Estimator := {
  entry_point : string;
  source_dir : string;
  est_role : string;
  output_path : string;
  est_instance_count : pipeline_var;
  est_instance_type : pipeline_var;
  volume_size : pipeline_var;
  py_version : string;
  est_framework_version : string;
  hyperparameters : list (string * pipeline_var);
  input_mode : pipeline_var;
  metric_definitions : list (string * string)
}.

Record TrainingInput := {
  s3_data : pipeline_var;
  content_type : string
}.

Record MetricsSource := {
  s3_uri : string;
  ms_content_type : string
}.

Record ModelMetrics := { model_statistics : MetricsSource }.

(** [JsonGet] keeps the step it reads from by name, which is what the SDK
    writes into the pipeline definition. *)
Record JsonGet := {
  jg_step : string;
  jg_property_file : PropertyFile;
  json_path : string
}.

Inductive Condition :=
| ConditionGreaterThanOrEqualTo (left : JsonGet) (right : Q).

#[warnings="-register-all"]
Inductive Step :=
| ProcessingStep (name : string) (processor : Processor)
    (inputs : list ProcessingInput) (outputs : list ProcessingOutput)
    (job_arguments : list string) (code : string)
    (property_files : list PropertyFile)
| TrainingStep (name : string) (estimator : Estimator)
    (inputs : list (string * TrainingInput))
| RegisterModel (name : string) (estimator : Estimator) (image_uri : string)
    (model_data : pipeline_var) (content_types response_types : list string)
    (inference_instances transform_instances : list pipeline_var)
    (model_package_group_name : string) (approval_status : pipeline_var)
| ConditionStep (name : string) (conditions : list Condition)
    (if_steps else_steps : list Step).

Definition step_name (s : Step) : string :=
  match s with
  | ProcessingStep n _ _ _ _ _ _ => n
  | TrainingStep n _ _ => n
  | RegisterModel n _ _ _ _ _ _ _ _ _ => n
  | ConditionStep n _ _ _ => n
  end.

Definition step_inputs (s : Step) : list ProcessingInput :=
  match s with ProcessingStep _ _ i _ _ _ _ => i | _ => [] end.
Definition step_outputs (s : Step) : list ProcessingOutput :=
  match s with ProcessingStep _ _ _ o _ _ _ => o | _ => [] end.
Definition step_job_arguments (s : Step) : list string :=
  match s with ProcessingStep _ _ _ _ a _ _ => a | _ => [] end.
Definition step_property_files (s : Step) : list PropertyFile :=
  match s with ProcessingStep _ _ _ _ _ _ f => f | _ => [] end.
Definition step_channels (s : Step) : list (string * TrainingInput) :=
  match s with TrainingStep _ _ i => i | _ => [] end.
Definition step_if_steps (s : Step) : list Step :=
  match s with ConditionStep _ _ i _ => i | _ => [] end.
Definition step_else_steps (s : Step) : list Step :=
  match s with ConditionStep _ _ _ e => e | _ => [] end.
Definition step_conditions (s : Step) : list Condition :=
  match s with ConditionStep _ c _ _ => c | _ => [] end.

Record Pipeline := {
  pipeline_name : string;
  parameters : list PipelineParameter;
  steps : list Step;
  sagemaker_session : Session
}.

(** ** The collaborators

    Everything the body calls that is not a descriptor constructor. *)
Record Runtime := {
  (** [boto3.Session().client(service_name='sagemaker', region_name=...)] *)
  boto3_client : string -> external unit;
  (** [os.listdir] *)
  os_listdir : string -> external (list string);
  (** [sagemaker.image_uris.retrieve(framework, region, version,
      py_version, instance_type, image_scope)] *)
  image_uris_retrieve :
    string -> string -> string -> string -> pipeline_var -> string ->
    external string;
  (** [str] on a float *)
  float_str : Q -> string;
  (** the S3 URI that a processing step's request arguments carry for one
      of its outputs: step name, position, output *)
  output_s3_uri : string -> nat -> ProcessingOutput -> string
}.

(** [str(v)] *)
Definition str (rt : Runtime) (v : pyprim) : string :=
  match v with
  | PInt z => pretty z
  | PFloat q => float_str rt q
  | PStr s => s
  | PBool true => "True"
  | PBool false => "False"
  end.

(** [os.path.join(a, b)] for two components (posix). *)
Definition os_path_join (a b : string) : string :=
  if String.prefix "/" b then b
  else if decide (a = "") then b
  else if String.eqb (String.substring (String.length a - 1) 1 a) "/" then a +:+ b
  else a +:+ "/" +:+ b.

(** ** The right-hand sides of [get_pipeline]

    One definition per assignment of the body, under the name of its
    target, taking the values of the names the right-hand side reads. *)

(** *** Parameters (lines 108-190) *)

Definition input_data (bucket : string) : PipelineParameter :=
  ParameterString "InputDataUrl" ("s3://" +:+ bucket +:+ "/amazon-reviews-pds/tsv/").
Definition processing_instance_count : PipelineParameter :=
  ParameterInteger "ProcessingInstanceCount" 1.
Definition processing_instance_type : PipelineParameter :=
  ParameterString "ProcessingInstanceType" "ml.c5.2xlarge".
Definition max_seq_length : PipelineParameter :=
  ParameterInteger "MaxSeqLength" 64.
Definition balance_dataset : PipelineParameter :=
  ParameterString "BalanceDataset" "True".
Definition train_split_percentage (default : Q) : PipelineParameter :=
  ParameterFloat "TrainSplitPercentage" default.
Definition validation_split_percentage (default : Q) : PipelineParameter :=
  ParameterFloat "ValidationSplitPercentage" default.
Definition test_split_percentage (default : Q) : PipelineParameter :=
  ParameterFloat "TestSplitPercentage" default.
Definition feature_store_offline_prefix (timestamp : string) : PipelineParameter :=
  ParameterString "FeatureStoreOfflinePrefix" ("reviews-feature-store-" +:+ timestamp).
Definition feature_group_name (timestamp : string) : PipelineParameter :=
  ParameterString "FeatureGroupName" ("reviews-feature-group-" +:+ timestamp).
Definition train_instance_type : PipelineParameter :=
  ParameterString "TrainingInstanceType" "ml.c5.9xlarge".
Definition train_instance_count : PipelineParameter :=
  ParameterInteger "TrainingInstanceCount" 1.
Definition model_approval_status : PipelineParameter :=
  ParameterString "ModelApprovalStatus" "PendingManualApproval".
Definition deploy_instance_type : PipelineParameter :=
  ParameterString "DeployInstanceType" "ml.m5.4xlarge".
Definition deploy_instance_count : PipelineParameter :=
  ParameterInteger "DeployInstanceCount" 1.

(** The literal defaults of the three split parameters (lines 135, 140,
    145). *)
Definition train_split_default : Q := 0.90.
Definition validation_split_default : Q := 0.05.
Definition test_split_default : Q := 0.05.

(** *** Processing step (lines 194-246) *)

Definition processor (role : string)
    (processing_instance_type processing_instance_count : PipelineParameter)
    : Processor :=
  {| framework_version := "0.20.0";
     proc_role := role;
     proc_instance_type := ParamRef processing_instance_type;
     proc_instance_count := ParamRef processing_instance_count;
     env := [];
     max_runtime_in_seconds := 7200 |}.

Definition processing_inputs (input_data : PipelineParameter)
    : list ProcessingInput :=
  [ {| input_name := Some "raw-input-data";
       source := ParamRef input_data;
       destination := "/opt/ml/processing/input/data/";
       s3_data_distribution_type := Some "ShardedByS3Key" |} ].

Definition processing_outputs : list ProcessingOutput :=
  [ {| output_name := "bert-train";
       s3_upload_mode := "EndOfJob";
       output_source := "/opt/ml/processing/output/bert/train" |};
    {| output_name := "bert-validation";
       s3_upload_mode := "EndOfJob";
       output_source := "/opt/ml/processing/output/bert/validation" |};
    {| output_name := "bert-test";
       s3_upload_mode := "EndOfJob";
       output_source := "/opt/ml/processing/output/bert/test" |} ].

Definition processing_step (rt : Runtime) (processor : Processor)
    (processing_inputs : list ProcessingInput)
    (processing_outputs : list ProcessingOutput)
    (train_split_percentage validation_split_percentage
     test_split_percentage max_seq_length balance_dataset
     feature_store_offline_prefix feature_group_name : PipelineParameter)
    (BASE_DIR : string) : Step :=
  ProcessingStep "Processing" processor processing_inputs processing_outputs
    [ "--train-split-percentage"; str rt (default_value train_split_percentage);
      "--validation-split-percentage"; str rt (default_value validation_split_percentage);
      "--test-split-percentage"; str rt (default_value test_split_percentage);
      "--max-seq-length"; str rt (default_value max_seq_length);
      "--balance-dataset"; str rt (default_value balance_dataset);
      "--feature-store-offline-prefix"; str rt (default_value feature_store_offline_prefix);
      "--feature-group-name"; str rt (default_value feature_group_name) ]
    (os_path_join BASE_DIR "preprocess-scikit-text-to-bert-feature-store.py")
    [].

(** *** Training step (lines 251-369) *)

(** The twenty literal assignments of lines 251-270, in order. *)
Definition training_literals : list (string * pyprim) :=
  [ ("epochs", PInt 1);
    ("learning_rate", PFloat 0.00001);
    ("epsilon", PFloat 0.00000001);
    ("train_batch_size", PInt 128);
    ("validation_batch_size", PInt 128);
    ("test_batch_size", PInt 128);
    ("train_steps_per_epoch", PInt 50);
    ("validation_steps", PInt 50);
    ("test_steps", PInt 50);
    ("train_volume_size", PInt 1024);
    ("use_xla", PBool true);
    ("use_amp", PBool true);
    ("freeze_bert_layer", PBool false);
    ("enable_sagemaker_debugger", PBool false);
    ("enable_checkpointing", PBool false);
    ("enable_tensorboard", PBool false);
    ("input_mode", PStr "File");
    ("run_validation", PBool true);
    ("run_test", PBool false);
    ("run_sample_predictions", PBool false) ].

Definition metrics_definitions : list (string * string) :=
  [ ("train:loss", "loss: ([0-9\.]+)");
    ("train:accuracy", "accuracy: ([0-9\.]+)");
    ("validation:loss", "val_loss: ([0-9\.]+)");
    ("validation:accuracy", "val_accuracy: ([0-9\.]+)") ].

Definition train_src (BASE_DIR : string) : string := os_path_join BASE_DIR "src".

Definition model_path (default_bucket base_job_prefix : string) : string :=
  "s3://" +:+ default_bucket +:+ "/" +:+ base_job_prefix +:+ "/output/model".

(** The keys of the [hyperparameters] dict (lines 322-340); each is given
    the value of the variable of the same name. *)
Definition hyperparameter_names : list string :=
  [ "epochs"; "learning_rate"; "epsilon"; "train_batch_size";
    "validation_batch_size"; "test_batch_size"; "train_steps_per_epoch";
    "validation_steps"; "test_steps"; "use_xla"; "use_amp"; "max_seq_length";
    "freeze_bert_layer"; "enable_sagemaker_debugger"; "enable_checkpointing";
    "enable_tensorboard"; "run_validation"; "run_test";
    "run_sample_predictions" ].

Definition estimator (BASE_DIR role model_path : string)
    (train_instance_count train_instance_type : PipelineParameter)
    (train_volume_size : pipeline_var)
    (hyperparameter_values : list pipeline_var)
    (input_mode : pipeline_var)
    (metrics_definitions : list (string * string)) : Estimator :=
  {| entry_point := "tf_bert_reviews.py";
     source_dir := BASE_DIR;
     est_role := role;
     output_path := model_path;
     est_instance_count := ParamRef train_instance_count;
     est_instance_type := ParamRef train_instance_type;
     volume_size := train_volume_size;
     py_version := "py37";
     est_framework_version := "2.3.1";
     hyperparameters := zip hyperparameter_names hyperparameter_values;
     input_mode := input_mode;
     metric_definitions := metrics_definitions |}.

(** [step.properties.ProcessingOutputConfig.Outputs[name].S3Output.S3Uri] *)
Definition output_uri_property (step : Step) (name : string) : pipeline_var :=
  PropertyRef (step_name step)
    ["ProcessingOutputConfig"; "Outputs"; name; "S3Output"; "S3Uri"].

(** [step.properties.ModelArtifacts.S3ModelArtifacts] *)
Definition model_artifacts_property (step : Step) : pipeline_var :=
  PropertyRef (step_name step) ["ModelArtifacts"; "S3ModelArtifacts"].

Definition training_step (estimator : Estimator) (step_process : Step) : Step :=
  TrainingStep "Train" estimator
    [ ("train",
       {| s3_data := output_uri_property step_process "bert-train";
          content_type := "text/csv" |});
      ("validation",
       {| s3_data := output_uri_property step_process "bert-validation";
          content_type := "text/csv" |});
      ("test",
       {| s3_data := output_uri_property step_process "bert-test";
          content_type := "text/csv" |}) ].

(** *** Evaluation step and model metrics (lines 375-429) *)

Definition evaluation_processor (role : string)
    (processing_instance_type processing_instance_count : PipelineParameter)
    (region : string) : Processor :=
  {| framework_version := "0.23-1";
     proc_role := role;
     proc_instance_type := ParamRef processing_instance_type;
     proc_instance_count := ParamRef processing_instance_count;
     env := [("AWS_DEFAULT_REGION", region)];
     max_runtime_in_seconds := 7200 |}.

Definition evaluation_report : PropertyFile :=
  {| pf_name := "EvaluationReport";
     pf_output_name := "metrics";
     path := "evaluation.json" |}.

Definition evaluation_step (rt : Runtime) (evaluation_processor : Processor)
    (training_step : Step) (raw_input_data_s3_uri : pipeline_var)
    (max_seq_length : PipelineParameter) (evaluation_report : PropertyFile)
    : Step :=
  ProcessingStep "EvaluateBERTModel" evaluation_processor
    [ {| input_name := None;
         source := model_artifacts_property training_step;
         destination := "/opt/ml/processing/input/model";
         s3_data_distribution_type := None |};
      {| input_name := None;
         source := raw_input_data_s3_uri;
         destination := "/opt/ml/processing/input/data";
         s3_data_distribution_type := None |} ]
    [ {| output_name := "metrics";
         s3_upload_mode := "EndOfJob";
         output_source := "/opt/ml/processing/output/metrics/" |} ]
    [ "--max-seq-length"; str rt (default_value max_seq_length) ]
    "evaluate_model_metrics.py"
    [ evaluation_report ].

(** [step.arguments["ProcessingOutputConfig"]["Outputs"][i]["S3Output"]["S3Uri"]]:
    the [i]-th declared output of a processing step, as the SDK lays it
    out in the step's request arguments. *)
Definition arguments_output_s3_uri (rt : Runtime) (step : Step) (i : nat)
    : result string :=
  match step with
  | ProcessingStep n _ _ outs _ _ _ =>
      match outs !! i with
      | Some o => Ok (output_s3_uri rt n i o)
      | None => Raise (IndexError "list index out of range")
      end
  | _ => Raise (TypeError "ProcessingOutputConfig")
  end.

Definition model_metrics (evaluation_output_s3_uri : string) : ModelMetrics :=
  {| model_statistics :=
       {| s3_uri := evaluation_output_s3_uri +:+ "/evaluation.json";
          ms_content_type := "application/json" |} |}.

(** *** Registration, condition, pipeline (lines 435-505) *)

Definition register_step (estimator : Estimator) (inference_image_uri : string)
    (step_train : Step) (deploy_instance_type : PipelineParameter)
    (model_package_group_name : string)
    (model_approval_status : PipelineParameter) : Step :=
  RegisterModel "RegisterBERTModel" estimator inference_image_uri
    (model_artifacts_property step_train)
    ["text/csv"] ["text/csv"]
    [ParamRef deploy_instance_type] [ParamRef deploy_instance_type]
    model_package_group_name (ParamRef model_approval_status).

Definition minimum_accuracy_condition (evaluation_step : Step)
    (evaluation_report : PropertyFile) : Condition :=
  ConditionGreaterThanOrEqualTo
    {| jg_step := step_name evaluation_step;
       jg_property_file := evaluation_report;
       json_path := "metrics.accuracy.value" |}
    0.01.

Definition minimum_accuracy_condition_step
    (minimum_accuracy_condition : Condition) (register_step : Step) : Step :=
  ConditionStep "AccuracyCondition" [minimum_accuracy_condition]
    [register_step] [].

Definition pipeline (pipeline_name : string)
    (input_data processing_instance_count processing_instance_type
     max_seq_length balance_dataset train_split_percentage
     validation_split_percentage test_split_percentage
     feature_store_offline_prefix feature_group_name train_instance_type
     train_instance_count model_approval_status deploy_instance_type
     deploy_instance_count : PipelineParameter)
    (processing_step training_step evaluation_step
     minimum_accuracy_condition_step : Step)
    (sess : Session) : Pipeline :=
  {| pipeline_name := pipeline_name;
     parameters :=
       [ input_data; processing_instance_count; processing_instance_type;
         max_seq_length; balance_dataset; train_split_percentage;
         validation_split_percentage; test_split_percentage;
         feature_store_offline_prefix; feature_group_name;
         train_instance_type; train_instance_count; model_approval_status;
         deploy_instance_type; deploy_instance_count ];
     steps :=
       [ processing_step; training_step; evaluation_step;
         minimum_accuracy_condition_step ];
     sagemaker_session := sess |}.

(** ** Execution: frames, name resolution, statements *)

Inductive pyval :=
| PyNone
| PyPrim (v : pyprim)
| PyObject (what : string)
| PySession (s : Session)
| PyParameter (p : PipelineParameter)
| PyProcessor (p : Processor)
| PyInputs (l : list ProcessingInput)
| PyOutputs (l : list ProcessingOutput)
| PyMetricDefinitions (l : list (string * string))
| PyEstimator (e : Estimator)
| PyPropertyFile (f : PropertyFile)
| PyModelMetrics (m : ModelMetrics)
| PyCondition (c : Condition)
| PyStep (s : Step)
| PyPipeline (p : Pipeline).

(** What an expression of a function body is evaluated in: the names the
    compiler made local to the function, the locals bound so far, and the
    module's globals. *)
Record scope := {
  co_varnames : list string;
  f_locals : gmap string pyval;
  f_globals : gmap string pyval
}.

Definition expr (A : Type) : Type := scope -> result A.

Definition ret {A} (a : A) : expr A := fun _ => Ok a.
Definition raise {A} (e : exn) : expr A := fun _ => Raise e.
Definition bind {A B} (m : expr A) (k : A -> expr B) : expr B :=
  fun sc => match m sc with Ok a => k a sc | Raise e => Raise e end.

Declare Scope py_scope.
Delimit Scope py_scope with py.
Notation "'let*' x := m 'in' k" := (bind m (fun x => k))
  (at level 10, x name, m at level 100, k at level 200) : py_scope.
Local Open Scope py_scope.

(** The builtins the body names; no builtin is called [TensorFlow],
    [step_process], [raw_input_data_s3_uri] or [step_train]. *)
Definition builtins : list string := ["str"; "print"].

(** Reading a name. A name in [co_varnames] is read from the locals only
    and is an [UnboundLocalError] while it has no value; any other name is
    read from the globals, then the builtins, and is a [NameError] when
    neither has it. *)
Definition load (x : string) : expr pyval := fun sc =>
  if bool_decide (x ∈ co_varnames sc) then
    match f_locals sc !! x with
    | Some v => Ok v
    | None => Raise (UnboundLocalError x)
    end
  else
    match f_globals sc !! x with
    | Some v => Ok v
    | None =>
        if bool_decide (x ∈ builtins) then Ok (PyObject x)
        else Raise (NameError x)
    end.

Definition call_external {A} (r : external A) : expr A :=
  match r with
  | Done a => ret a
  | Failed what => raise (ExternalError what)
  end.

Definition lift {A} (r : result A) : expr A := fun _ => r.

(** Typed reads: the value of a name, used as the SDK call it is passed to
    uses it. *)
Definition as_str (v : pyval) : expr string :=
  match v with PyPrim (PStr s) => ret s | _ => raise (TypeError "str") end.
Definition as_parameter (v : pyval) : expr PipelineParameter :=
  match v with PyParameter p => ret p | _ => raise (TypeError "Parameter") end.
Definition as_var (v : pyval) : expr pipeline_var :=
  match v with
  | PyPrim p => ret (Literal p)
  | PyParameter p => ret (ParamRef p)
  | _ => raise (TypeError "value")
  end.
Definition as_processor (v : pyval) : expr Processor :=
  match v with PyProcessor p => ret p | _ => raise (TypeError "Processor") end.
Definition as_inputs (v : pyval) : expr (list ProcessingInput) :=
  match v with PyInputs l => ret l | _ => raise (TypeError "inputs") end.
Definition as_outputs (v : pyval) : expr (list ProcessingOutput) :=
  match v with PyOutputs l => ret l | _ => raise (TypeError "outputs") end.
Definition as_metric_definitions (v : pyval) : expr (list (string * string)) :=
  match v with
  | PyMetricDefinitions l => ret l
  | _ => raise (TypeError "metric definitions")
  end.
Definition as_estimator (v : pyval) : expr Estimator :=
  match v with PyEstimator e => ret e | _ => raise (TypeError "Estimator") end.
Definition as_property_file (v : pyval) : expr PropertyFile :=
  match v with PyPropertyFile f => ret f | _ => raise (TypeError "PropertyFile") end.
Definition as_condition (v : pyval) : expr Condition :=
  match v with PyCondition c => ret c | _ => raise (TypeError "Condition") end.
Definition as_step (v : pyval) : expr Step :=
  match v with PyStep s => ret s | _ => raise (TypeError "Step") end.
Definition as_session (v : pyval) : expr Session :=
  match v with PySession s => ret s | _ => raise (TypeError "Session") end.

Definition load_as {A} (x : string) (f : pyval -> expr A) : expr A :=
  let* v := load x in f v.

Fixpoint load_all_as {A} (xs : list string) (f : pyval -> expr A)
    : expr (list A) :=
  match xs with
  | [] => ret []
  | x :: xs' =>
      let* a := load_as x f in
      let* l := load_all_as xs' f in
      ret (a :: l)
  end.

Inductive stmt :=
| Assign (target : string) (value : expr pyval)
| ImportFrom (module : string) (names : list string)
| ExprStmt (value : expr pyval)
| Return (value : expr pyval).

Definition bound_names (s : stmt) : list string :=
  match s with
  | Assign target _ => [target]
  | ImportFrom _ names => names
  | ExprStmt _ => []
  | Return _ => []
  end.

Record pyfunction := {
  fn_params : list string;
  fn_body : list stmt
}.

(** The local names of a function: its parameters and every name its body
    binds, wherever the binding statement stands. *)
Definition locals_of (f : pyfunction) : list string :=
  fn_params f ++ flat_map bound_names (fn_body f).

Inductive completion :=
| Fallthrough (frame : gmap string pyval)
| Returned (v : pyval).

Definition import_into (module : string) (names : list string)
    (frame : gmap string pyval) : gmap string pyval :=
  foldl (fun fr n => <[n := PyObject (module +:+ "." +:+ n)]> fr) frame names.

Section Exec.
Variable varnames : list string.
Variable globals : gmap string pyval.

Definition eval {A} (e : expr A) (frame : gmap string pyval) : result A :=
  e {| co_varnames := varnames; f_locals := frame; f_globals := globals |}.

Fixpoint exec (body : list stmt) (frame : gmap string pyval)
    : result completion :=
  match body with
  | [] => Ok (Fallthrough frame)
  | Assign target value :: rest =>
      match eval value frame with
      | Ok v => exec rest (<[target := v]> frame)
      | Raise e => Raise e
      end
  | ImportFrom module names :: rest =>
      exec rest (import_into module names frame)
  | ExprStmt value :: rest =>
      match eval value frame with
      | Ok _ => exec rest frame
      | Raise e => Raise e
      end
  | Return value :: _ =>
      match eval value frame with
      | Ok v => Ok (Returned v)
      | Raise e => Raise e
      end
  end.
End Exec.

(** Calling a function: the arguments are bound to the parameters, the body
    runs, and falling off the end gives [None]. *)
Definition bind_arguments (params : list string) (args : list pyval)
    : gmap string pyval :=
  list_to_map (zip params args).

Definition call (globals : gmap string pyval) (f : pyfunction)
    (args : list pyval) : result pyval :=
  match exec (locals_of f) globals (fn_body f)
          (bind_arguments (fn_params f) args) with
  | Ok (Returned v) => Ok v
  | Ok (Fallthrough _) => Ok PyNone
  | Raise e => Raise e
  end.

(** ** The module

    Names bound at module level before [get_pipeline] is called: the
    imports of lines 13-60, then [sess], [bucket], [timestamp], [BASE_DIR]
    (lines 62-69) and the function itself. *)

Definition module_imports : list string :=
  [ "os"; "boto3"; "logging"; "time"; "ClientError"; "sagemaker";
    "smexperiments"; "Experiment"; "Estimator"; "TrainingInput";
    "MetricsSource"; "ModelMetrics"; "ProcessingInput"; "ProcessingOutput";
    "ScriptProcessor"; "SKLearnProcessor"; "ConditionGreaterThanOrEqualTo";
    "ConditionStep"; "JsonGet"; "ParameterInteger"; "ParameterString";
    "ParameterFloat"; "Pipeline"; "PropertyFile"; "ProcessingStep";
    "TrainingStep"; "RegisterModel" ].

Definition sess (bucket : string) : Session :=
  {| session_default_bucket := bucket |}.

Definition module_globals (bucket timestamp BASE_DIR : string)
    : gmap string pyval :=
  list_to_map
    (((fun n => (n, PyObject n)) <$> module_imports) ++
     [ ("sess", PySession (sess bucket));
       ("bucket", PyPrim (PStr bucket));
       ("timestamp", PyPrim (PStr timestamp));
       ("BASE_DIR", PyPrim (PStr BASE_DIR));
       ("get_pipeline", PyObject "get_pipeline") ]).

(** ** The body of [get_pipeline], statement by statement

    Each right-hand side reads its names in Python's evaluation order (the
    callee, then the arguments left to right) and then builds the
    descriptor. The defaults of the three split parameters are arguments
    of the body here; the source fixes them to the literals above. *)

Definition get_pipeline_params : list string :=
  [ "region"; "role"; "default_bucket"; "pipeline_name";
    "model_package_group_name"; "base_job_prefix" ].

Section Body.
Variable rt : Runtime.
Variables train_split validation_split test_split : Q.

Definition create_client : stmt :=
  (* 106 *)
  Assign "sm" (
    let* _ := load "boto3" in
    let* region := load_as "region" as_str in
    let* _ := call_external (boto3_client rt region) in
    ret (PyObject "sagemaker client")).

Definition declare_parameters : list stmt :=
  [ (* 108 *)
    Assign "input_data" (
      let* _ := load "ParameterString" in
      let* bucket := load_as "bucket" as_str in
      ret (PyParameter (input_data bucket)));
    (* 113 *)
    Assign "processing_instance_count" (
      let* _ := load "ParameterInteger" in
      ret (PyParameter processing_instance_count));
    (* 118 *)
    Assign "processing_instance_type" (
      let* _ := load "ParameterString" in
      ret (PyParameter processing_instance_type));
    (* 123 *)
    Assign "max_seq_length" (
      let* _ := load "ParameterInteger" in
      ret (PyParameter max_seq_length));
    (* 128 *)
    Assign "balance_dataset" (
      let* _ := load "ParameterString" in
      ret (PyParameter balance_dataset));
    (* 133 *)
    Assign "train_split_percentage" (
      let* _ := load "ParameterFloat" in
      ret (PyParameter (train_split_percentage train_split)));
    (* 138 *)
    Assign "validation_split_percentage" (
      let* _ := load "ParameterFloat" in
      ret (PyParameter (validation_split_percentage validation_split)));
    (* 143 *)
    Assign "test_split_percentage" (
      let* _ := load "ParameterFloat" in
      ret (PyParameter (test_split_percentage test_split)));
    (* 148 *)
    Assign "feature_store_offline_prefix" (
      let* _ := load "ParameterString" in
      let* _ := load "str" in
      let* timestamp := load_as "timestamp" as_str in
      ret (PyParameter (feature_store_offline_prefix timestamp)));
    (* 153 *)
    Assign "feature_group_name" (
      let* _ := load "ParameterString" in
      let* _ := load "str" in
      let* timestamp := load_as "timestamp" as_str in
      ret (PyParameter (feature_group_name timestamp)));
    (* 161 *)
    Assign "train_instance_type" (
      let* _ := load "ParameterString" in
      ret (PyParameter train_instance_type));
    (* 166 *)
    Assign "train_instance_count" (
      let* _ := load "ParameterInteger" in
      ret (PyParameter train_instance_count));
    (* 174 *)
    Assign "model_approval_status" (
      let* _ := load "ParameterString" in
      ret (PyParameter model_approval_status));
    (* 182 *)
    Assign "deploy_instance_type" (
      let* _ := load "ParameterString" in
      ret (PyParameter deploy_instance_type));
    (* 187 *)
    Assign "deploy_instance_count" (
      let* _ := load "ParameterInteger" in
      ret (PyParameter deploy_instance_count)) ].

Definition assign_processor : stmt :=
  (* 194 *)
  Assign "processor" (
    let* _ := load "SKLearnProcessor" in
    let* role := load_as "role" as_str in
    let* instance_type := load_as "processing_instance_type" as_parameter in
    let* instance_count := load_as "processing_instance_count" as_parameter in
    ret (PyProcessor (processor role instance_type instance_count))).

Definition build_processing_step : list stmt :=
  [ (* 203 *)
    Assign "processing_inputs" (
      let* _ := load "ProcessingInput" in
      let* source := load_as "input_data" as_parameter in
      ret (PyInputs (processing_inputs source)));
    (* 213 *)
    Assign "processing_outputs" (
      let* _ := load "ProcessingOutput" in
      let* _ := load "ProcessingOutput" in
      let* _ := load "ProcessingOutput" in
      ret (PyOutputs processing_outputs));
    (* 231 *)
    Assign "processing_step" (
      let* _ := load "ProcessingStep" in
      let* p := load_as "processor" as_processor in
      let* ins := load_as "processing_inputs" as_inputs in
      let* outs := load_as "processing_outputs" as_outputs in
      let* _ := load "str" in
      let* a1 := load_as "train_split_percentage" as_parameter in
      let* _ := load "str" in
      let* a2 := load_as "validation_split_percentage" as_parameter in
      let* _ := load "str" in
      let* a3 := load_as "test_split_percentage" as_parameter in
      let* _ := load "str" in
      let* a4 := load_as "max_seq_length" as_parameter in
      let* _ := load "str" in
      let* a5 := load_as "balance_dataset" as_parameter in
      let* _ := load "str" in
      let* a6 := load_as "feature_store_offline_prefix" as_parameter in
      let* _ := load "str" in
      let* a7 := load_as "feature_group_name" as_parameter in
      let* _ := load "os" in
      let* base_dir := load_as "BASE_DIR" as_str in
      ret (PyStep (processing_step rt p ins outs a1 a2 a3 a4 a5 a6 a7 base_dir))) ].

Definition assign_training_settings : list stmt :=
  (* 251-270 *)
  ((fun nv => Assign nv.1 (ret (PyPrim nv.2))) <$> training_literals) ++
  [ (* 273 *)
    Assign "metrics_definitions" (ret (PyMetricDefinitions metrics_definitions));
    (* 294 *)
    Assign "train_src" (
      let* _ := load "os" in
      let* base_dir := load_as "BASE_DIR" as_str in
      ret (PyPrim (PStr (train_src base_dir)))) ].

Definition assign_model_path : stmt :=
  (* 295 *)
  Assign "model_path" (
    let* default_bucket := load_as "default_bucket" as_str in
    let* base_job_prefix := load_as "base_job_prefix" as_str in
    ret (PyPrim (PStr (model_path default_bucket base_job_prefix)))).

Definition list_base_dir : list stmt :=
  [ (* 301 *)
    ExprStmt (
      let* _ := load "print" in
      let* _ := load "os" in
      let* base_dir := load_as "BASE_DIR" as_str in
      let* _ := call_external (os_listdir rt base_dir) in
      ret PyNone);
    (* 302 *)
    ExprStmt (
      let* _ := load "os" in
      let* base_dir := load_as "BASE_DIR" as_str in
      let* _ := call_external (os_listdir rt base_dir) in
      ret PyNone) ].

Definition assign_estimator : stmt :=
  (* 309 *)
  Assign "estimator" (
    let* _ := load "TensorFlow" in
    let* base_dir := load_as "BASE_DIR" as_str in
    let* role := load_as "role" as_str in
    let* output_path := load_as "model_path" as_str in
    let* instance_count := load_as "train_instance_count" as_parameter in
    let* instance_type := load_as "train_instance_type" as_parameter in
    let* volume := load_as "train_volume_size" as_var in
    let* values := load_all_as hyperparameter_names as_var in
    let* mode := load_as "input_mode" as_var in
    let* metrics := load_as "metrics_definitions" as_metric_definitions in
    ret (PyEstimator (estimator base_dir role output_path instance_count
                        instance_type volume values mode metrics))).

Definition assign_training_step : stmt :=
  (* 346 *)
  Assign "training_step" (
    let* _ := load "TrainingStep" in
    let* est := load_as "estimator" as_estimator in
    let* _ := load "TrainingInput" in
    let* step_process := load_as "step_process" as_step in
    let* _ := load "TrainingInput" in
    let* _ := load_as "step_process" as_step in
    let* _ := load "TrainingInput" in
    let* _ := load_as "step_process" as_step in
    ret (PyStep (training_step est step_process))).

Definition build_evaluation_processor : list stmt :=
  [ (* 373 *)
    ImportFrom "sagemaker.sklearn.processing" ["SKLearnProcessor"];
    (* 375 *)
    Assign "evaluation_processor" (
      let* _ := load "SKLearnProcessor" in
      let* role := load_as "role" as_str in
      let* instance_type := load_as "processing_instance_type" as_parameter in
      let* instance_count := load_as "processing_instance_count" as_parameter in
      let* region := load_as "region" as_str in
      ret (PyProcessor (evaluation_processor role instance_type instance_count region)));
    (* 383 *)
    ImportFrom "sagemaker.workflow.properties" ["PropertyFile"];
    (* 388 *)
    Assign "evaluation_report" (
      let* _ := load "PropertyFile" in
      ret (PyPropertyFile evaluation_report)) ].

Definition assign_evaluation_step : stmt :=
  (* 394 *)
  Assign "evaluation_step" (
    let* _ := load "ProcessingStep" in
    let* p := load_as "evaluation_processor" as_processor in
    let* _ := load "ProcessingInput" in
    let* trained := load_as "training_step" as_step in
    let* _ := load "ProcessingInput" in
    let* raw := load_as "raw_input_data_s3_uri" as_var in
    let* _ := load "ProcessingOutput" in
    let* _ := load "str" in
    let* msl := load_as "max_seq_length" as_parameter in
    let* report := load_as "evaluation_report" as_property_file in
    ret (PyStep (evaluation_step rt p trained raw msl report))).

Definition build_model_metrics : list stmt :=
  [ (* 420 *)
    ImportFrom "sagemaker.model_metrics" ["MetricsSource"; "ModelMetrics"];
    (* 422 *)
    Assign "model_metrics" (
      let* _ := load "ModelMetrics" in
      let* _ := load "MetricsSource" in
      let* evaluated := load_as "evaluation_step" as_step in
      let* uri := lift (arguments_output_s3_uri rt evaluated 0) in
      ret (PyModelMetrics (model_metrics uri))) ].

Definition retrieve_inference_image : list stmt :=
  [ (* 435 *)
    Assign "inference_image_uri" (
      let* _ := load "sagemaker" in
      let* region := load_as "region" as_str in
      let* instance_type := load_as "deploy_instance_type" as_var in
      let* uri := call_external
        (image_uris_retrieve rt "tensorflow" region "2.3.1" "py37"
           instance_type "inference") in
      ret (PyPrim (PStr uri)));
    (* 443 *)
    ExprStmt (
      let* _ := load "print" in
      let* _ := load "inference_image_uri" in
      ret PyNone) ].

Definition assign_register_step : stmt :=
  (* 446 *)
  Assign "register_step" (
    let* _ := load "RegisterModel" in
    let* est := load_as "estimator" as_estimator in
    let* image := load_as "inference_image_uri" as_str in
    let* step_train := load_as "step_train" as_step in
    let* inference := load_as "deploy_instance_type" as_parameter in
    let* _ := load_as "deploy_instance_type" as_parameter in
    let* group := load_as "model_package_group_name" as_str in
    let* status := load_as "model_approval_status" as_parameter in
    ret (PyStep (register_step est image step_train inference group status))).

Definition build_condition_step : list stmt :=
  [ (* 460 *)
    ImportFrom "sagemaker.workflow.conditions" ["ConditionGreaterThanOrEqualTo"];
    (* 461 *)
    ImportFrom "sagemaker.workflow.condition_step" ["ConditionStep"; "JsonGet"];
    (* 466 *)
    Assign "minimum_accuracy_condition" (
      let* _ := load "ConditionGreaterThanOrEqualTo" in
      let* _ := load "JsonGet" in
      let* evaluated := load_as "evaluation_step" as_step in
      let* report := load_as "evaluation_report" as_property_file in
      ret (PyCondition (minimum_accuracy_condition evaluated report)));
    (* 475 *)
    Assign "minimum_accuracy_condition_step" (
      let* _ := load "ConditionStep" in
      let* c := load_as "minimum_accuracy_condition" as_condition in
      let* r := load_as "register_step" as_step in
      ret (PyStep (minimum_accuracy_condition_step c r))) ].

Definition build_pipeline : list stmt :=
  [ (* 483 *)
    Assign "pipeline" (
      let* _ := load "Pipeline" in
      let* name := load_as "pipeline_name" as_str in
      let* p1 := load_as "input_data" as_parameter in
      let* p2 := load_as "processing_instance_count" as_parameter in
      let* p3 := load_as "processing_instance_type" as_parameter in
      let* p4 := load_as "max_seq_length" as_parameter in
      let* p5 := load_as "balance_dataset" as_parameter in
      let* p6 := load_as "train_split_percentage" as_parameter in
      let* p7 := load_as "validation_split_percentage" as_parameter in
      let* p8 := load_as "test_split_percentage" as_parameter in
      let* p9 := load_as "feature_store_offline_prefix" as_parameter in
      let* p10 := load_as "feature_group_name" as_parameter in
      let* p11 := load_as "train_instance_type" as_parameter in
      let* p12 := load_as "train_instance_count" as_parameter in
      let* p13 := load_as "model_approval_status" as_parameter in
      let* p14 := load_as "deploy_instance_type" as_parameter in
      let* p15 := load_as "deploy_instance_count" as_parameter in
      let* s1 := load_as "processing_step" as_step in
      let* s2 := load_as "training_step" as_step in
      let* s3 := load_as "evaluation_step" as_step in
      let* s4 := load_as "minimum_accuracy_condition_step" as_step in
      let* session := load_as "sess" as_session in
      ret (PyPipeline (pipeline name p1 p2 p3 p4 p5 p6 p7 p8 p9 p10 p11 p12
                         p13 p14 p15 s1 s2 s3 s4 session)));
    (* 505 *)
    Return (load "pipeline") ].

Definition get_pipeline_body : list stmt :=
  [create_client] ++ declare_parameters ++
  [assign_processor] ++ build_processing_step ++
  assign_training_settings ++ [assign_model_path] ++ list_base_dir ++
  [assign_estimator] ++ [assign_training_step] ++
  build_evaluation_processor ++ [assign_evaluation_step] ++
  build_model_metrics ++
  retrieve_inference_image ++ [assign_register_step] ++
  build_condition_step ++ build_pipeline.

Definition get_pipeline_code : pyfunction :=
  {| fn_params := get_pipeline_params; fn_body := get_pipeline_body |}.
End Body.

(** The module's runtime values: the session's default bucket, the
    timestamp string and the directory of the file. *)
Record ModuleState := {
  bucket : string;
  timestamp : string;
  BASE_DIR : string
}.

Definition globals_of (m : ModuleState) : gmap string pyval :=
  module_globals (bucket m) (timestamp m) (BASE_DIR m).

(** The arguments of a call, and the frame the call starts from. *)
Definition arguments
    (region role default_bucket pipeline_name model_package_group_name
     base_job_prefix : string) : list pyval :=
  [ PyPrim (PStr region); PyPrim (PStr role); PyPrim (PStr default_bucket);
    PyPrim (PStr pipeline_name); PyPrim (PStr model_package_group_name);
    PyPrim (PStr base_job_prefix) ].

Definition call_frame
    (region role default_bucket pipeline_name model_package_group_name
     base_job_prefix : string) : gmap string pyval :=
  bind_arguments get_pipeline_params
    (arguments region role default_bucket pipeline_name
       model_package_group_name base_job_prefix).

(** A call of the builder with the split defaults left open. *)
Definition get_pipeline_with (rt : Runtime) (m : ModuleState)
    (train_split validation_split test_split : Q)
    (region role default_bucket pipeline_name model_package_group_name
     base_job_prefix : string) : result pyval :=
  call (globals_of m)
    (get_pipeline_code rt train_split validation_split test_split)
    (arguments region role default_bucket pipeline_name
       model_package_group_name base_job_prefix).

(** [get_pipeline(region, role, default_bucket, pipeline_name,
    model_package_group_name, base_job_prefix)] as the source has it. *)
Definition get_pipeline (rt : Runtime) (m : ModuleState)
    (region role default_bucket pipeline_name model_package_group_name
     base_job_prefix : string) : result pyval :=
  get_pipeline_with rt m train_split_default validation_split_default
    test_split_default region role default_bucket pipeline_name
    model_package_group_name base_job_prefix.

(** Running a segment of the body in the function's scope. *)
Definition run (rt : Runtime) (m : ModuleState) (segment : list stmt)
    (frame : gmap string pyval) : result completion :=
  exec (locals_of (get_pipeline_code rt train_split_default
                     validation_split_default test_split_default))
    (globals_of m) segment frame.

(** The frame a segment leaves when it runs to its end. *)
Definition frame_after (r : result completion) : gmap string pyval :=
  match r with
  | Ok (Fallthrough frame) => frame
  | _ => ∅
  end.

(** The value a name holds once a segment has run to its end. *)
Definition value_after (r : result completion) (x : string) : option pyval :=
  match r with
  | Ok (Fallthrough frame) => frame !! x
  | _ => None
  end.

(** ** What the claims are stated with *)

(** The parameters a processing step refers to by object: the only way a
    value given when the pipeline is started reaches the step. *)
Definition var_params (v : pipeline_var) : list PipelineParameter :=
  match v with ParamRef p => [p] | _ => [] end.

Definition processing_param_refs (s : Step) : list PipelineParameter :=
  match s with
  | ProcessingStep _ p ins _ _ _ _ =>
      var_params (proc_instance_type p) ++ var_params (proc_instance_count p) ++
      flat_map (fun i => var_params (source i)) ins
  | _ => []
  end.

(** How the service reads a condition step, given the number found at the
    condition's JSON path: [ConditionGreaterThanOrEqualTo] holds when the
    left value is at least the right one, and the step continues with
    [if_steps] when all its conditions hold, with [else_steps] otherwise. *)
Definition condition_holds (c : Condition) (metric : Q) : bool :=
  match c with
  | ConditionGreaterThanOrEqualTo _ threshold => Qle_bool threshold metric
  end.

Definition branch_taken (s : Step) (metric : Q) : list Step :=
  if forallb (fun c => condition_holds c metric) (step_conditions s)
  then step_if_steps s
  else step_else_steps s.

(** The bucket of an [s3://bucket/key] location. *)
Fixpoint until_slash (s : string) : string :=
  match s with
  | EmptyString => EmptyString
  | String c rest =>
      if Ascii.eqb c "/"%char then EmptyString else String c (until_slash rest)
  end.

Fixpoint strip_prefix (p s : string) : option string :=
  match p, s with
  | EmptyString, _ => Some s
  | String a p', String b s' =>
      if Ascii.eqb a b then strip_prefix p' s' else None
  | String _ _, EmptyString => None
  end.

Definition s3_bucket (uri : string) : option string :=
  until_slash <$> strip_prefix "s3://" uri.

Definition no_slash (s : string) : Prop :=
  forallb (fun c => negb (Ascii.eqb c "/")) (list_ascii_of_string s) = true.

(** A concrete call, used where a claim is evaluated. *)
Definition example_runtime : Runtime :=
  {| boto3_client := fun _ => Done tt;
     os_listdir := fun _ =>
       Done ["pipeline.py"; "preprocess-scikit-text-to-bert-feature-store.py";
             "evaluate_model_metrics.py"; "tf_bert_reviews.py"];
     image_uris_retrieve := fun framework region version _ _ scope =>
       Done ("763104351884.dkr.ecr." +:+ region +:+ ".amazonaws.com/" +:+
             framework +:+ "-" +:+ scope +:+ ":" +:+ version +:+ "-cpu");
     float_str := fun q =>
       if Qeq_bool q 0.9 then "0.9"
       else if Qeq_bool q 0.05 then "0.05"
       else "0.0";
     output_s3_uri := fun step _ o =>
       "s3://sagemaker-us-east-1-111122223333/" +:+ step +:+ "/output/" +:+
       output_name o |}.

Definition example_module : ModuleState :=
  {| bucket := "sagemaker-us-east-1-111122223333";
     timestamp := "16200000000000000";
     BASE_DIR := "/opt/ml/code/pipelines/dsoaws" |}.

(** ** The body as one expression

    What the statements of the body build when every name they read has a
    value: the right-hand sides composed along the body's data flow. The
    values of the names the module does not define are arguments. *)

(** The value of a variable that line 321 puts in the [hyperparameters]
    dict: a literal of lines 251-270, or the [max_seq_length] parameter
    object. *)
Definition hyperparameter_value (x : string) : option pipeline_var :=
  match (list_to_map training_literals : gmap string pyprim) !! x with
  | Some v => Some (Literal v)
  | None =>
      if String.eqb x "max_seq_length" then Some (ParamRef max_seq_length)
      else None
  end.

Definition assembled_estimator (m : ModuleState)
    (role default_bucket base_job_prefix : string) : Estimator :=
  estimator (BASE_DIR m) role (model_path default_bucket base_job_prefix)
    train_instance_count train_instance_type (Literal (PInt 1024))
    (omap hyperparameter_value hyperparameter_names)
    (Literal (PStr "File")) metrics_definitions.

Definition assembled_processing_step (rt : Runtime) (m : ModuleState)
    (train_split validation_split test_split : Q) (role : string) : Step :=
  processing_step rt
    (processor role processing_instance_type processing_instance_count)
    (processing_inputs (input_data (bucket m))) processing_outputs
    (train_split_percentage train_split)
    (validation_split_percentage validation_split)
    (test_split_percentage test_split)
    max_seq_length balance_dataset
    (feature_store_offline_prefix (timestamp m))
    (feature_group_name (timestamp m)) (BASE_DIR m).

Definition assembled_training_step (m : ModuleState)
    (role default_bucket base_job_prefix : string) (step_process : Step)
    : Step :=
  training_step (assembled_estimator m role default_bucket base_job_prefix)
    step_process.

Definition assembled_evaluation_step (rt : Runtime) (m : ModuleState)
    (region role default_bucket base_job_prefix : string)
    (step_process : Step) (raw_input_data_s3_uri : pipeline_var) : Step :=
  evaluation_step rt
    (evaluation_processor role processing_instance_type
       processing_instance_count region)
    (assembled_training_step m role default_bucket base_job_prefix step_process)
    raw_input_data_s3_uri max_seq_length evaluation_report.

Definition assembled_register_step (m : ModuleState)
    (role default_bucket model_package_group_name base_job_prefix : string)
    (inference_image_uri : string) (step_train : Step) : Step :=
  register_step (assembled_estimator m role default_bucket base_job_prefix)
    inference_image_uri step_train deploy_instance_type
    model_package_group_name model_approval_status.

Definition assembled_condition_step (rt : Runtime) (m : ModuleState)
    (region role default_bucket model_package_group_name base_job_prefix
     : string)
    (inference_image_uri : string) (step_process step_train : Step)
    (raw_input_data_s3_uri : pipeline_var) : Step :=
  minimum_accuracy_condition_step
    (minimum_accuracy_condition
       (assembled_evaluation_step rt m region role default_bucket
          base_job_prefix step_process raw_input_data_s3_uri)
       evaluation_report)
    (assembled_register_step m role default_bucket model_package_group_name
       base_job_prefix inference_image_uri step_train).

Definition assembled_pipeline (rt : Runtime) (m : ModuleState)
    (train_split validation_split test_split : Q)
    (region role default_bucket pipeline_name model_package_group_name
     base_job_prefix : string)
    (inference_image_uri : string) (step_process step_train : Step)
    (raw_input_data_s3_uri : pipeline_var) : Pipeline :=
  pipeline pipeline_name
    (input_data (bucket m)) processing_instance_count processing_instance_type
    max_seq_length balance_dataset
    (train_split_percentage train_split)
    (validation_split_percentage validation_split)
    (test_split_percentage test_split)
    (feature_store_offline_prefix (timestamp m))
    (feature_group_name (timestamp m))
    train_instance_type train_instance_count model_approval_status
    deploy_instance_type deploy_instance_count
    (assembled_processing_step rt m train_split validation_split test_split role)
    (assembled_training_step m role default_bucket base_job_prefix step_process)
    (assembled_evaluation_step rt m region role default_bucket base_job_prefix
       step_process raw_input_data_s3_uri)
    (assembled_condition_step rt m region role default_bucket
       model_package_group_name base_job_prefix inference_image_uri
       step_process step_train raw_input_data_s3_uri)
    (sess (bucket m)).

(** The class [sagemaker.tensorflow.TensorFlow], which the import that
    line 281 comments out would bind: calling it builds an estimator from
    its arguments. *)
Definition TensorFlow_class : pyval := PyObject "sagemaker.tensorflow.TensorFlow".

(** A scope in which the names the body misses have a value: the module's
    globals with [TensorFlow], [step_process], [raw_input_data_s3_uri] and
    [step_train] added, and a call frame in which [SKLearnProcessor] is
    already bound. *)
Definition supplied_globals (m : ModuleState) (TensorFlow : pyval)
    (step_process : Step) (raw_input_data_s3_uri : pyprim)
    (step_train : Step) : gmap string pyval :=
  <["TensorFlow" := TensorFlow]>
    (<["step_process" := PyStep step_process]>
       (<["raw_input_data_s3_uri" := PyPrim raw_input_data_s3_uri]>
          (<["step_train" := PyStep step_train]> (globals_of m)))).

Definition supplied_frame
    (region role default_bucket pipeline_name model_package_group_name
     base_job_prefix : string) : gmap string pyval :=
  <["SKLearnProcessor" := PyObject "SKLearnProcessor"]>
    (call_frame region role default_bucket pipeline_name
       model_package_group_name base_job_prefix).

(** The body run in a given scope. *)
Definition run_body (rt : Runtime) (globals : gmap string pyval)
    (train_split validation_split test_split : Q)
    (frame : gmap string pyval) : result completion :=
  exec
    (locals_of (get_pipeline_code rt train_split validation_split test_split))
    globals (get_pipeline_body rt train_split validation_split test_split)
    frame.

(** ** Parameter objects and step names a pipeline refers to *)

Definition estimator_param_refs (e : Estimator) : list PipelineParameter :=
  var_params (est_instance_count e) ++ var_params (est_instance_type e) ++
  var_params (volume_size e) ++
  flat_map (fun kv => var_params kv.2) (hyperparameters e) ++
  var_params (input_mode e).

Fixpoint step_param_refs (s : Step) : list PipelineParameter :=
  match s with
  | ProcessingStep _ p ins _ _ _ _ =>
      var_params (proc_instance_type p) ++ var_params (proc_instance_count p) ++
      flat_map (fun i => var_params (source i)) ins
  | TrainingStep _ e channels =>
      estimator_param_refs e ++
      flat_map (fun c => var_params (s3_data c.2)) channels
  | RegisterModel _ e _ model_data _ _ inference transform _ status =>
      estimator_param_refs e ++ var_params model_data ++
      flat_map var_params inference ++ flat_map var_params transform ++
      var_params status
  | ConditionStep _ _ if_steps else_steps =>
      flat_map step_param_refs if_steps ++ flat_map step_param_refs else_steps
  end.

(** The declared parameters that no step refers to by object. *)
Definition unreferenced_parameters (p : Pipeline) : list PipelineParameter :=
  filter
    (fun q => param_name q ∉ (param_name <$> flat_map step_param_refs (steps p)))
    (parameters p).

Definition var_steps (v : pipeline_var) : list string :=
  match v with PropertyRef s _ => [s] | _ => [] end.

Definition condition_step_ref (c : Condition) : string :=
  match c with ConditionGreaterThanOrEqualTo l _ => jg_step l end.

(** The names of the steps whose properties or property files a step
    reads. *)
Fixpoint step_refs (s : Step) : list string :=
  match s with
  | ProcessingStep _ _ ins _ _ _ _ => flat_map (fun i => var_steps (source i)) ins
  | TrainingStep _ _ channels =>
      flat_map (fun c => var_steps (s3_data c.2)) channels
  | RegisterModel _ _ _ model_data _ _ _ _ _ _ => var_steps model_data
  | ConditionStep _ conditions if_steps else_steps =>
      (condition_step_ref <$> conditions) ++
      flat_map step_refs if_steps ++ flat_map step_refs else_steps
  end.

(** A runtime whose collaborators always answer: the client is created,
    the directory is listed, the image is found. *)
Definition answering (listing : string -> list string)
    (image : string -> string -> string -> string -> pipeline_var -> string ->
             string)
    (fstr : Q -> string) (ouri : string -> nat -> ProcessingOutput -> string)
    : Runtime :=
  {| boto3_client := fun _ => Done tt;
     os_listdir := fun d => Done (listing d);
     image_uris_retrieve := fun framework region version py instance scope =>
       Done (image framework region version py instance scope);
     float_str := fstr;
     output_s3_uri := ouri |}.

(** ** Name resolution in the function's scope *)

Section Resolution.
Variable rt : Runtime.
Variable m : ModuleState.
Variables train_split validation_split test_split : Q.

Let varnames :=
  locals_of (get_pipeline_code rt train_split validation_split test_split).

(** [x] is bound neither in the function, nor in the module, nor in the
    builtins. *)
Definition defined_nowhere (x : string) : Prop :=
  forall frame,
    eval varnames (globals_of m) (load x) frame = Raise (NameError x).

Example str_of_int : str rt (PInt 64) = "64".
Proof. reflexivity. Qed.

Example os_path_join_relative : os_path_join "/opt/ml" "src" = "/opt/ml/src".
Proof. reflexivity. Qed.

Lemma locals_closed :
  varnames =
  locals_of (get_pipeline_code example_runtime 0 0 0).
Proof. vm_compute. reflexivity. Qed.

Lemma eval_bind {A B} (e : expr A) (k : A -> expr B) frame :
  eval varnames (globals_of m) (bind e k) frame =
  match eval varnames (globals_of m) e frame with
  | Ok a => eval varnames (globals_of m) (k a) frame
  | Raise err => Raise err
  end.
Proof. reflexivity. Qed.

Lemma eval_load_local x frame :
  bool_decide (x ∈ locals_of (get_pipeline_code example_runtime 0 0 0)) = true ->
  eval varnames (globals_of m) (load x) frame =
  match frame !! x with
  | Some v => Ok v
  | None => Raise (UnboundLocalError x)
  end.
Proof.
  intros H. unfold eval, load. cbn [co_varnames f_locals f_globals].
  rewrite locals_closed, H. reflexivity.
Qed.

Lemma eval_load_global x frame :
  bool_decide (x ∈ locals_of (get_pipeline_code example_runtime 0 0 0)) = false ->
  eval varnames (globals_of m) (load x) frame =
  match globals_of m !! x with
  | Some v => Ok v
  | None =>
      if bool_decide (x ∈ builtins) then Ok (PyObject x)
      else Raise (NameError x)
  end.
Proof.
  intros H. unfold eval, load. cbn [co_varnames f_locals f_globals].
  rewrite locals_closed, H. reflexivity.
Qed.

(** The import of line 373 makes [SKLearnProcessor] a local of the
    function. *)
Lemma SKLearnProcessor_is_local : "SKLearnProcessor" ∈ varnames.
Proof. apply (bool_decide_eq_true_1 _). vm_compute. reflexivity. Qed.

Lemma undefined_names :
  defined_nowhere "TensorFlow" /\ defined_nowhere "step_process" /\
  defined_nowhere "raw_input_data_s3_uri" /\ defined_nowhere "step_train".
Proof.
  repeat split; intros frame;
    (rewrite eval_load_global by (vm_compute; reflexivity));
    vm_compute; reflexivity.
Qed.
End Resolution.

(** ** What a call does *)

Section Calls.
Variable rt : Runtime.
Variable m : ModuleState.
Variables region role default_bucket pipeline_name
  model_package_group_name base_job_prefix : string.

(** The call ends at line 194, or before it when the client cannot be
    created. *)
Lemma get_pipeline_with_outcome t v s :
  get_pipeline_with rt m t v s region role default_bucket pipeline_name
    model_package_group_name base_job_prefix =
  match boto3_client rt region with
  | Done _ => Raise (UnboundLocalError "SKLearnProcessor")
  | Failed what => Raise (ExternalError what)
  end.
Proof.
  destruct rt as [client listdir retrieve fstr ouri]. vm_compute.
  destruct (client region); reflexivity.
Qed.

Lemma get_pipeline_outcome :
  get_pipeline rt m region role default_bucket pipeline_name
    model_package_group_name base_job_prefix =
  match boto3_client rt region with
  | Done _ => Raise (UnboundLocalError "SKLearnProcessor")
  | Failed what => Raise (ExternalError what)
  end.
Proof. unfold get_pipeline. apply get_pipeline_with_outcome. Qed.

(** Line 346, in any frame. *)
Lemma training_step_outcome frame :
  run rt m [assign_training_step] frame =
  Raise (match frame !! "estimator" with
         | Some (PyEstimator _) => NameError "step_process"
         | Some _ => TypeError "Estimator"
         | None => UnboundLocalError "estimator"
         end).
Proof.
  unfold run, assign_training_step. cbn [exec].
  rewrite eval_bind.
  rewrite eval_load_global by (vm_compute; reflexivity).
  replace (globals_of m !! "TrainingStep") with (Some (PyObject "TrainingStep"))
    by (vm_compute; reflexivity).
  unfold load_as at 1. rewrite !eval_bind.
  rewrite eval_load_local by (vm_compute; reflexivity).
  destruct (frame !! "estimator") as [[]|]; reflexivity.
Qed.

(** Line 394, in any frame. *)
Lemma evaluation_step_outcome frame :
  run rt m [assign_evaluation_step rt] frame =
  Raise (match frame !! "evaluation_processor" with
         | Some (PyProcessor _) =>
             match frame !! "training_step" with
             | Some (PyStep _) => NameError "raw_input_data_s3_uri"
             | Some _ => TypeError "Step"
             | None => UnboundLocalError "training_step"
             end
         | Some _ => TypeError "Processor"
         | None => UnboundLocalError "evaluation_processor"
         end).
Proof.
  unfold run, assign_evaluation_step. cbn [exec].
  rewrite eval_bind.
  rewrite eval_load_global by (vm_compute; reflexivity).
  replace (globals_of m !! "ProcessingStep")
    with (Some (PyObject "ProcessingStep")) by (vm_compute; reflexivity).
  unfold load_as at 1. rewrite !eval_bind.
  rewrite eval_load_local by (vm_compute; reflexivity).
  destruct (frame !! "evaluation_processor") as [[]|]; try reflexivity.
  cbn [as_processor ret eval]. rewrite eval_bind.
  rewrite eval_load_global by (vm_compute; reflexivity).
  replace (globals_of m !! "ProcessingInput")
    with (Some (PyObject "ProcessingInput")) by (vm_compute; reflexivity).
  unfold load_as at 1. rewrite !eval_bind.
  rewrite eval_load_local by (vm_compute; reflexivity).
  destruct (frame !! "training_step") as [[]|]; reflexivity.
Qed.

(** Line 446, in any frame. *)
Lemma register_step_outcome frame :
  run rt m [assign_register_step] frame =
  Raise (match frame !! "estimator" with
         | Some (PyEstimator _) =>
             match frame !! "inference_image_uri" with
             | Some (PyPrim (PStr _)) => NameError "step_train"
             | Some _ => TypeError "str"
             | None => UnboundLocalError "inference_image_uri"
             end
         | Some _ => TypeError "Estimator"
         | None => UnboundLocalError "estimator"
         end).
Proof.
  unfold run, assign_register_step. cbn [exec].
  rewrite eval_bind.
  rewrite eval_load_global by (vm_compute; reflexivity).
  replace (globals_of m !! "RegisterModel")
    with (Some (PyObject "RegisterModel")) by (vm_compute; reflexivity).
  unfold load_as at 1. rewrite !eval_bind.
  rewrite eval_load_local by (vm_compute; reflexivity).
  destruct (frame !! "estimator") as [[]|]; try reflexivity.
  cbn [as_estimator ret eval].
  unfold load_as at 1. rewrite !eval_bind.
  rewrite eval_load_local by (vm_compute; reflexivity).
  destruct (frame !! "inference_image_uri") as [[| [] | | | | | | | | | | | | |]|];
    reflexivity.
Qed.
End Calls.

(** ** The claims about a call *)

(** C1. The claim: for every valid input, [get_pipeline] returns a pipeline
    with the fifteen declared parameters and the four top-level steps. On
    the code the call returns nothing: at a valid input, with every
    collaborator answering, it raises at line 194. *)
Theorem get_pipeline_raises_on_valid_input :
  get_pipeline example_runtime example_module
    "us-east-1" "arn:aws:iam::111122223333:role/SageMakerRole"
    "sagemaker-us-east-1-111122223333" "bert-pipeline" "bert-reviews" "bert" =
  Raise (UnboundLocalError "SKLearnProcessor").
Proof. vm_compute. reflexivity. Qed.

(** C2, as stated: every call fails on one of the three reads
    [step_process], [raw_input_data_s3_uri], [step_train]. At the example
    input the failure is none of them. *)
Lemma failure_is_none_of_the_three_reads :
  ~ (exists n,
       n ∈ ["step_process"; "raw_input_data_s3_uri"; "step_train"] /\
       get_pipeline example_runtime example_module
         "us-east-1" "arn:aws:iam::111122223333:role/SageMakerRole"
         "sagemaker-us-east-1-111122223333" "bert-pipeline" "bert-reviews"
         "bert" = Raise (NameError n)).
Proof. intros (n & _ & H). vm_compute in H. discriminate H. Qed.

(** C2, amended. Every call fails and returns no value. Once the client of
    line 106 exists, the failure is the read of [SKLearnProcessor] at line
    194, a name that the import of line 373 makes local to the function and
    that has no value yet. [step_process], [raw_input_data_s3_uri] and
    [step_train] are defined nowhere, and the statements that read them
    (lines 346, 394, 446) raise in every frame, but the call does not get
    that far. *)
Theorem get_pipeline_always_fails (rt : Runtime) (m : ModuleState)
    (region role default_bucket pipeline_name model_package_group_name
     base_job_prefix : string) :
  get_pipeline rt m region role default_bucket pipeline_name
    model_package_group_name base_job_prefix =
  match boto3_client rt region with
  | Done _ => Raise (UnboundLocalError "SKLearnProcessor")
  | Failed what => Raise (ExternalError what)
  end /\
  (forall v,
     get_pipeline rt m region role default_bucket pipeline_name
       model_package_group_name base_job_prefix <> Ok v) /\
  "SKLearnProcessor" ∈
    locals_of (get_pipeline_code rt train_split_default
                 validation_split_default test_split_default) /\
  defined_nowhere rt m train_split_default validation_split_default
    test_split_default "step_process" /\
  defined_nowhere rt m train_split_default validation_split_default
    test_split_default "raw_input_data_s3_uri" /\
  defined_nowhere rt m train_split_default validation_split_default
    test_split_default "step_train" /\
  (forall e,
     run rt m [assign_training_step] {["estimator" := PyEstimator e]} =
     Raise (NameError "step_process")) /\
  (forall p t,
     run rt m [assign_evaluation_step rt]
       (<["evaluation_processor" := PyProcessor p]>
          {["training_step" := PyStep t]}) =
     Raise (NameError "raw_input_data_s3_uri")) /\
  (forall e uri,
     run rt m [assign_register_step]
       (<["estimator" := PyEstimator e]>
          {["inference_image_uri" := PyPrim (PStr uri)]}) =
     Raise (NameError "step_train")).
Proof.
  pose proof (undefined_names rt m train_split_default
                validation_split_default test_split_default)
    as (_ & Hp & Hr & Ht).
  split; [apply get_pipeline_outcome|].
  split.
  { intros v. rewrite get_pipeline_outcome.
    destruct (boto3_client rt region); discriminate. }
  split; [apply SKLearnProcessor_is_local|].
  do 3 (split; [assumption|]).
  split; [|split].
  - intros e. rewrite training_step_outcome.
    rewrite lookup_singleton_eq. reflexivity.
  - intros p t. rewrite evaluation_step_outcome.
    rewrite lookup_insert_eq, lookup_insert_ne by discriminate.
    rewrite lookup_singleton_eq. reflexivity.
  - intros e uri. rewrite register_step_outcome.
    rewrite lookup_insert_eq, lookup_insert_ne by discriminate.
    rewrite lookup_singleton_eq. reflexivity.
Qed.

(** C3. The claim: the training step's channels [train], [validation],
    [test] reference the processing step's outputs [bert-train],
    [bert-validation], [bert-test]. On the code the three channels are read
    from a name [step_process] that is bound nowhere, not from
    [processing_step]: in every frame, also one where [processing_step] and
    [estimator] hold a step and an estimator, line 346 raises and binds no
    training step. What does hold is the naming: were [step_process] bound
    to a step, the three channels would name that step's outputs by the
    names the processing outputs declare. *)
Theorem training_step_reads_undefined_step_process
    (rt : Runtime) (m : ModuleState) :
  (forall frame, exists e, run rt m [assign_training_step] frame = Raise e) /\
  (forall frame e p,
     run rt m [assign_training_step]
       (<["estimator" := PyEstimator e]>
          (<["processing_step" := PyStep p]> frame)) =
     Raise (NameError "step_process")) /\
  (forall e step_process,
     step_channels (training_step e step_process) =
     zip ["train"; "validation"; "test"]
       ((fun o => {| s3_data := output_uri_property step_process (output_name o);
                     content_type := "text/csv" |}) <$> processing_outputs)).
Proof.
  split; [|split].
  - intros frame. rewrite training_step_outcome. eauto.
  - intros frame e p. rewrite training_step_outcome.
    rewrite lookup_insert_eq. reflexivity.
  - reflexivity.
Qed.

(** C8. The builder validates no range. Whatever defaults the three split
    parameters are declared with, summing to 1 or not, lines 108-190 run to
    their end and bind the parameters with exactly those defaults, and the
    call never ends in a validation error: its outcome is that of the call
    with the source's literals. *)
Theorem no_range_validation (rt : Runtime) (m : ModuleState)
    (train_split validation_split test_split : Q)
    (region role default_bucket pipeline_name model_package_group_name
     base_job_prefix : string) :
  let declared :=
    run rt m (declare_parameters train_split validation_split test_split)
      (call_frame region role default_bucket pipeline_name
         model_package_group_name base_job_prefix) in
  value_after declared "train_split_percentage" =
    Some (PyParameter (ParameterFloat "TrainSplitPercentage" train_split)) /\
  value_after declared "validation_split_percentage" =
    Some (PyParameter (ParameterFloat "ValidationSplitPercentage" validation_split)) /\
  value_after declared "test_split_percentage" =
    Some (PyParameter (ParameterFloat "TestSplitPercentage" test_split)) /\
  (forall what,
     get_pipeline_with rt m train_split validation_split test_split
       region role default_bucket pipeline_name model_package_group_name
       base_job_prefix <> Raise (ValueError what)) /\
  get_pipeline_with rt m train_split validation_split test_split
    region role default_bucket pipeline_name model_package_group_name
    base_job_prefix =
  get_pipeline rt m region role default_bucket pipeline_name
    model_package_group_name base_job_prefix.
Proof.
  split; [vm_compute; reflexivity|].
  split; [vm_compute; reflexivity|].
  split; [vm_compute; reflexivity|].
  split.
  - intros what. rewrite get_pipeline_with_outcome.
    destruct (boto3_client rt region); discriminate.
  - rewrite get_pipeline_with_outcome, get_pipeline_outcome. reflexivity.
Qed.

(** C9. The claim: two calls that differ only in [pipeline_name] return
    descriptors that differ only in the name. On the code neither call
    returns a descriptor: both raise at line 194. *)
Theorem get_pipeline_two_names_both_raise :
  get_pipeline example_runtime example_module
    "us-east-1" "arn:aws:iam::111122223333:role/SageMakerRole"
    "sagemaker-us-east-1-111122223333" "bert-pipeline-a" "bert-reviews"
    "bert" = Raise (UnboundLocalError "SKLearnProcessor") /\
  get_pipeline example_runtime example_module
    "us-east-1" "arn:aws:iam::111122223333:role/SageMakerRole"
    "sagemaker-us-east-1-111122223333" "bert-pipeline-b" "bert-reviews"
    "bert" = Raise (UnboundLocalError "SKLearnProcessor").
Proof. split; vm_compute; reflexivity. Qed.

(** ** The claims about the descriptors

    The call never reaches the statements below line 194, so what they
    build is stated on the statements themselves, run in the function's
    scope from a frame that gives the locals they read a value. *)

(** The body does build the pipeline once the names it misses have a
    value: with [SKLearnProcessor] already in the frame and [TensorFlow],
    [step_process], [raw_input_data_s3_uri], [step_train] added to the
    globals, it returns the fifteen parameters and the four steps. *)
Example body_with_names_supplied :
  let globals :=
    <["TensorFlow" := PyObject "TensorFlow"]>
      (<["step_process" := PyStep (ProcessingStep "Processing"
            (processor "role" processing_instance_type processing_instance_count)
            [] processing_outputs [] "" [])]>
         (<["raw_input_data_s3_uri" := PyPrim (PStr "s3://raw/")]>
            (<["step_train" := PyStep (TrainingStep "Train"
                 (estimator "" "" "" train_instance_count train_instance_type
                    (Literal (PInt 1024)) [] (Literal (PStr "File")) []) [])]>
               (globals_of example_module)))) in
  let code :=
    get_pipeline_code example_runtime train_split_default
      validation_split_default test_split_default in
  exists p,
    exec (locals_of code) globals (fn_body code)
      (<["SKLearnProcessor" := PyObject "SKLearnProcessor"]>
         (call_frame "us-east-1" "role" "a-bucket" "bert-pipeline"
            "bert-reviews" "bert")) = Ok (Returned (PyPipeline p)) /\
    param_name <$> parameters p =
      [ "InputDataUrl"; "ProcessingInstanceCount"; "ProcessingInstanceType";
        "MaxSeqLength"; "BalanceDataset"; "TrainSplitPercentage";
        "ValidationSplitPercentage"; "TestSplitPercentage";
        "FeatureStoreOfflinePrefix"; "FeatureGroupName";
        "TrainingInstanceType"; "TrainingInstanceCount";
        "ModelApprovalStatus"; "DeployInstanceType"; "DeployInstanceCount" ] /\
    step_name <$> steps p =
      [ "Processing"; "Train"; "EvaluateBERTModel"; "AccuracyCondition" ].
Proof. eexists. split; [vm_compute; reflexivity|]. split; reflexivity. Qed.

(** C4. Lines 203-246, run in the frame that the parameter declarations
    leave with [processor] bound to the processor of line 194, bind
    [processing_step] to a step with exactly one input, named
    [raw-input-data], whose source is the [InputDataUrl] parameter object
    and whose distribution is [ShardedByS3Key]; with exactly the three
    outputs [bert-train], [bert-validation], [bert-test]; and with job
    arguments that are the [str] renderings of the parameters' default
    values. The step refers to three parameter objects only (instance
    type, instance count, input location): the split, sequence-length,
    balance and feature-store parameters are in it as rendered defaults,
    out of reach of a value given when the pipeline is started. *)
Theorem processing_step_shape (rt : Runtime) (m : ModuleState)
    (train_split validation_split test_split : Q)
    (region role default_bucket pipeline_name model_package_group_name
     base_job_prefix : string) :
  let frame :=
    <["processor" :=
        PyProcessor (processor role processing_instance_type
                       processing_instance_count)]>
      (frame_after
         (run rt m (declare_parameters train_split validation_split test_split)
            (call_frame region role default_bucket pipeline_name
               model_package_group_name base_job_prefix))) in
  exists step,
    value_after (run rt m (build_processing_step rt) frame) "processing_step" =
      Some (PyStep step) /\
    step_inputs step =
      [ {| input_name := Some "raw-input-data";
           source := ParamRef (input_data (bucket m));
           destination := "/opt/ml/processing/input/data/";
           s3_data_distribution_type := Some "ShardedByS3Key" |} ] /\
    param_name (input_data (bucket m)) = "InputDataUrl" /\
    output_name <$> step_outputs step =
      [ "bert-train"; "bert-validation"; "bert-test" ] /\
    step_job_arguments step =
      [ "--train-split-percentage";
        str rt (default_value (train_split_percentage train_split));
        "--validation-split-percentage";
        str rt (default_value (validation_split_percentage validation_split));
        "--test-split-percentage";
        str rt (default_value (test_split_percentage test_split));
        "--max-seq-length"; str rt (default_value max_seq_length);
        "--balance-dataset"; str rt (default_value balance_dataset);
        "--feature-store-offline-prefix";
        str rt (default_value (feature_store_offline_prefix (timestamp m)));
        "--feature-group-name";
        str rt (default_value (feature_group_name (timestamp m))) ] /\
    param_name <$> processing_param_refs step =
      [ "ProcessingInstanceType"; "ProcessingInstanceCount"; "InputDataUrl" ].
Proof.
  eexists. split; [vm_compute; reflexivity|].
  do 4 (split; [reflexivity|]). reflexivity.
Qed.


(** C6. Lines 460-480, run in a frame where [evaluation_step],
    [evaluation_report] and [register_step] hold a step, the property file
    and a step, bind [minimum_accuracy_condition_step] to a condition step
    with one condition: the value at JSON path [metrics.accuracy.value] of
    the evaluation step's property file, compared against the literal
    0.01. For every metric value, the branch taken is the registration step
    alone when the condition holds and no step at all when it does not; the
    else-branch is empty. *)
Theorem accuracy_condition_branches (rt : Runtime) (m : ModuleState)
    (evaluated registered : Step) :
  exists condition_step,
    value_after
      (run rt m build_condition_step
         (list_to_map
            [ ("evaluation_step", PyStep evaluated);
              ("evaluation_report", PyPropertyFile evaluation_report);
              ("register_step", PyStep registered) ]))
      "minimum_accuracy_condition_step" = Some (PyStep condition_step) /\
    step_conditions condition_step =
      [ ConditionGreaterThanOrEqualTo
          {| jg_step := step_name evaluated;
             jg_property_file := evaluation_report;
             json_path := "metrics.accuracy.value" |}
          0.01 ] /\
    step_if_steps condition_step = [registered] /\
    step_else_steps condition_step = [] /\
    forall metric : Q,
      branch_taken condition_step metric =
      if Qle_bool 0.01 metric then [registered] else [].
Proof.
  eexists. split; [vm_compute; reflexivity|].
  do 3 (split; [reflexivity|]).
  intros metric. unfold branch_taken. cbn.
  destruct (Qle_bool _ metric); reflexivity.
Qed.


Lemma until_slash_stops (b rest : string) :
  no_slash b -> until_slash (b +:+ String "/" rest) = b.
Proof.
  unfold no_slash. induction b as [|c b IH]; intros H.
  - reflexivity.
  - simpl in H. simpl. destruct (Ascii.eqb c "/") eqn:E.
    + discriminate H.
    + f_equal. apply IH. exact H.
Qed.

Lemma s3_bucket_of_location (b rest : string) :
  no_slash b -> s3_bucket ("s3://" +:+ b +:+ String "/" rest) = Some b.
Proof.
  intros H. unfold s3_bucket.
  replace (strip_prefix "s3://" ("s3://" +:+ b +:+ String "/" rest))
    with (Some (b +:+ String "/" rest)) by reflexivity.
  cbn [fmap option_fmap option_map]. f_equal. apply until_slash_stops, H.
Qed.

(** C10, as stated: whenever [default_bucket] differs from the session's
    default bucket, the default input location and the model location are
    in different buckets. With the session bucket [b] and
    [default_bucket = "b/x"], which the builder takes as it is, line 108
    gives [s3://b/amazon-reviews-pds/tsv/] and line 295 gives
    [s3://b/x/bert/output/model]: two locations in the one bucket [b]. *)
Lemma locations_in_one_bucket :
  let m := {| bucket := "b"; timestamp := "16200000000000000";
              BASE_DIR := "/opt/ml/code/pipelines/dsoaws" |} in
  let frame :=
    call_frame "us-east-1" "arn:aws:iam::111122223333:role/SageMakerRole"
      "b/x" "bert-pipeline" "bert-reviews" "bert" in
  "b/x" <> bucket m /\
  value_after
    (run example_runtime m
       (declare_parameters train_split_default validation_split_default
          test_split_default) frame) "input_data" =
    Some (PyParameter
            (ParameterString "InputDataUrl" "s3://b/amazon-reviews-pds/tsv/")) /\
  value_after (run example_runtime m [assign_model_path] frame) "model_path" =
    Some (PyPrim (PStr "s3://b/x/bert/output/model")) /\
  s3_bucket "s3://b/amazon-reviews-pds/tsv/" = Some "b" /\
  s3_bucket "s3://b/x/bert/output/model" = Some "b".
Proof.
  split; [discriminate|].
  split; [vm_compute; reflexivity|].
  split; [vm_compute; reflexivity|].
  split; reflexivity.
Qed.

(** C10, amended. The default of [InputDataUrl] that line 108 declares is a
    location in the module's [bucket], the default bucket of the
    module-level session, whatever the [default_bucket] argument is; the
    model path of line 295, which is the estimator's output path, is a
    location in the [default_bucket] argument. When the two bucket names
    differ and neither contains a [/], the two locations are in different
    buckets. *)
Theorem input_and_model_locations_differ (rt : Runtime) (m : ModuleState)
    (train_split validation_split test_split : Q)
    (region role default_bucket pipeline_name model_package_group_name
     base_job_prefix : string) :
  no_slash (bucket m) -> no_slash default_bucket ->
  default_bucket <> bucket m ->
  let frame :=
    call_frame region role default_bucket pipeline_name
      model_package_group_name base_job_prefix in
  let input_location := "s3://" +:+ bucket m +:+ "/amazon-reviews-pds/tsv/" in
  let model_location :=
    "s3://" +:+ default_bucket +:+ "/" +:+ base_job_prefix +:+ "/output/model" in
  value_after
    (run rt m (declare_parameters train_split validation_split test_split) frame)
    "input_data" =
    Some (PyParameter (ParameterString "InputDataUrl" input_location)) /\
  value_after (run rt m [assign_model_path] frame) "model_path" =
    Some (PyPrim (PStr model_location)) /\
  (forall base_dir count type volume values mode metrics,
     output_path (estimator base_dir role model_location count type volume
                    values mode metrics) = model_location) /\
  s3_bucket input_location = Some (bucket m) /\
  s3_bucket model_location = Some default_bucket /\
  s3_bucket input_location <> s3_bucket model_location.
Proof.
  intros Hb Hd Hne frame input_location model_location.
  assert (Hi : s3_bucket input_location = Some (bucket m))
    by (apply s3_bucket_of_location, Hb).
  assert (Hm : s3_bucket model_location = Some default_bucket)
    by (apply s3_bucket_of_location, Hd).
  split; [vm_compute; reflexivity|].
  split; [vm_compute; reflexivity|].
  split; [reflexivity|].
  split; [exact Hi|]. split; [exact Hm|].
  rewrite Hi, Hm. intros H. apply Hne. congruence.
Qed.

(** C10 at the example module with [default_bucket = "bert-artifacts"]. *)
Lemma input_and_model_locations_differ_witness :
  no_slash "sagemaker-us-east-1-111122223333" /\
  no_slash "bert-artifacts" /\
  "bert-artifacts" <> "sagemaker-us-east-1-111122223333" /\
  s3_bucket "s3://sagemaker-us-east-1-111122223333/amazon-reviews-pds/tsv/" <>
  s3_bucket "s3://bert-artifacts/bert/output/model".
Proof.
  assert (H1 : no_slash "sagemaker-us-east-1-111122223333") by reflexivity.
  assert (H2 : no_slash "bert-artifacts") by reflexivity.
  assert (H3 : "bert-artifacts" <> "sagemaker-us-east-1-111122223333")
    by discriminate.
  split; [exact H1|]. split; [exact H2|]. split; [exact H3|].
  exact (proj2 (proj2 (proj2 (proj2 (proj2
    (input_and_model_locations_differ example_runtime example_module
       train_split_default validation_split_default test_split_default
       "us-east-1" "arn:aws:iam::111122223333:role/SageMakerRole"
       "bert-artifacts" "bert-pipeline" "bert-reviews" "bert"
       H1 H2 H3)))))).
Defined.

(** ** Further properties of the body

    What the body assembles when the names it misses have the values they
    are used as: [TensorFlow] the estimator class, [step_process] a
    processing step, [step_train] a training step and
    [raw_input_data_s3_uri] a string. *)

Section Supplied.
Variable listing : string -> list string.
Variable image :
  string -> string -> string -> string -> pipeline_var -> string -> string.
Variable fstr : Q -> string.
Variable ouri : string -> nat -> ProcessingOutput -> string.
Variable m : ModuleState.
Variables train_split validation_split test_split : Q.
Variables region role default_bucket name model_package_group_name
  base_job_prefix : string.
Variables process_name process_code : string.
Variable process_processor : Processor.
Variable process_inputs : list ProcessingInput.
Variable process_outputs : list ProcessingOutput.
Variable process_arguments : list string.
Variable process_files : list PropertyFile.
Variable train_name : string.
Variable train_estimator : Estimator.
Variable train_channels : list (string * TrainingInput).
Variable raw_uri : string.

Let rt := answering listing image fstr ouri.
Let step_process :=
  ProcessingStep process_name process_processor process_inputs
    process_outputs process_arguments process_code process_files.
Let step_train := TrainingStep train_name train_estimator train_channels.
Let raw := PStr raw_uri.
Let inference_image :=
  image "tensorflow" region "2.3.1" "py37" (ParamRef deploy_instance_type)
    "inference".
Let frame :=
  supplied_frame region role default_bucket name
    model_package_group_name base_job_prefix.

Lemma run_body_supplied :
  run_body rt (supplied_globals m TensorFlow_class step_process raw step_train)
    train_split validation_split test_split frame =
  Ok (Returned (PyPipeline
        (assembled_pipeline rt m train_split validation_split test_split
           region role default_bucket name model_package_group_name
           base_job_prefix inference_image step_process step_train
           (Literal raw)))).
Proof. vm_compute. reflexivity. Qed.


(** X3. In the pipeline the body assembles, the fifteen parameters have
    pairwise distinct names, and so have the five steps: the four
    top-level ones and the registration step in the condition. *)
Theorem parameter_and_step_names_distinct :
  exists p condition,
    run_body rt (supplied_globals m TensorFlow_class step_process raw step_train)
      train_split validation_split test_split frame =
      Ok (Returned (PyPipeline p)) /\
    steps p !! 3%nat = Some condition /\
    length (parameters p) = 15%nat /\
    NoDup (param_name <$> parameters p) /\
    step_name <$> (steps p ++ step_if_steps condition ++
                   step_else_steps condition)%list =
      [ "Processing"; "Train"; "EvaluateBERTModel"; "AccuracyCondition";
        "RegisterBERTModel" ] /\
    NoDup (step_name <$> (steps p ++ step_if_steps condition ++
                          step_else_steps condition)%list).
Proof.
  eexists _, _. split; [apply run_body_supplied|].
  split; [reflexivity|]. split; [reflexivity|].
  split; [|split; [reflexivity|]].
  - apply (bool_decide_unpack _). vm_compute. exact I.
  - apply (bool_decide_unpack _). vm_compute. exact I.
Qed.

Lemma unreferenced_names :
  param_name <$> unreferenced_parameters
    (assembled_pipeline rt m train_split validation_split test_split
       region role default_bucket name model_package_group_name
       base_job_prefix inference_image step_process step_train (Literal raw)) =
  [ "BalanceDataset"; "TrainSplitPercentage"; "ValidationSplitPercentage";
    "TestSplitPercentage"; "FeatureStoreOfflinePrefix"; "FeatureGroupName";
    "DeployInstanceCount" ].
Proof. vm_compute. reflexivity. Qed.

Lemma referenced_names :
  remove_dups (param_name <$> flat_map step_param_refs (steps
    (assembled_pipeline rt m train_split validation_split test_split
       region role default_bucket name model_package_group_name
       base_job_prefix inference_image step_process step_train (Literal raw)))) =
  [ "InputDataUrl"; "ProcessingInstanceType"; "ProcessingInstanceCount";
    "TrainingInstanceCount"; "TrainingInstanceType"; "MaxSeqLength";
    "DeployInstanceType"; "ModelApprovalStatus" ].
Proof. vm_compute. reflexivity. Qed.

(** X4. Of the fifteen declared parameters, the steps of the assembled
    pipeline are handed eight as objects: [InputDataUrl], the processing
    and training instance types and counts, [MaxSeqLength],
    [DeployInstanceType] and [ModelApprovalStatus]. The other seven,
    [BalanceDataset], the three split percentages,
    [FeatureStoreOfflinePrefix], [FeatureGroupName] and
    [DeployInstanceCount], are handed to no step, the registration step
    included. *)
Theorem parameters_no_step_carries :
  exists p,
    run_body rt (supplied_globals m TensorFlow_class step_process raw step_train)
      train_split validation_split test_split frame =
      Ok (Returned (PyPipeline p)) /\
    remove_dups (param_name <$> flat_map step_param_refs (steps p)) =
      [ "InputDataUrl"; "ProcessingInstanceType"; "ProcessingInstanceCount";
        "TrainingInstanceCount"; "TrainingInstanceType"; "MaxSeqLength";
        "DeployInstanceType"; "ModelApprovalStatus" ] /\
    param_name <$> unreferenced_parameters p =
      [ "BalanceDataset"; "TrainSplitPercentage"; "ValidationSplitPercentage";
        "TestSplitPercentage"; "FeatureStoreOfflinePrefix";
        "FeatureGroupName"; "DeployInstanceCount" ].
Proof.
  eexists. split; [apply run_body_supplied|].
  split; [apply referenced_names|apply unreferenced_names].
Qed.

Lemma hyperparameters_not_literal :
  filter (fun kv : string * pipeline_var => var_params kv.2 <> [])
    (hyperparameters
       (assembled_estimator m role default_bucket base_job_prefix)) =
  [ ("max_seq_length", ParamRef max_seq_length) ].
Proof. vm_compute. reflexivity. Qed.

(** X5. The estimator of the assembled training step is given the
    [MaxSeqLength] parameter object as its [max_seq_length] hyperparameter,
    the only one of the nineteen hyperparameters that is not a literal,
    while the processing and the evaluation step are given the rendered
    default, [--max-seq-length 64], and do not carry the parameter
    object. *)
Theorem max_seq_length_object_in_training_only :
  exists p processing training_estimator channels evaluation,
    run_body rt (supplied_globals m TensorFlow_class step_process raw step_train)
      train_split validation_split test_split frame =
      Ok (Returned (PyPipeline p)) /\
    steps p !! 0%nat = Some processing /\
    steps p !! 1%nat = Some (TrainingStep "Train" training_estimator channels) /\
    steps p !! 2%nat = Some evaluation /\
    fst <$> hyperparameters training_estimator = hyperparameter_names /\
    length (hyperparameters training_estimator) = 19%nat /\
    filter (fun kv : string * pipeline_var => var_params kv.2 <> [])
      (hyperparameters training_estimator) =
      [ ("max_seq_length", ParamRef max_seq_length) ] /\
    take 2 (drop 6 (step_job_arguments processing)) =
      [ "--max-seq-length"; "64" ] /\
    step_job_arguments evaluation = [ "--max-seq-length"; "64" ] /\
    param_name <$> step_param_refs processing =
      [ "ProcessingInstanceType"; "ProcessingInstanceCount"; "InputDataUrl" ] /\
    param_name <$> step_param_refs evaluation =
      [ "ProcessingInstanceType"; "ProcessingInstanceCount" ].
Proof.
  eexists _, _, _, _, _. split; [apply run_body_supplied|].
  do 5 (split; [reflexivity|]).
  split; [apply hyperparameters_not_literal|].
  do 3 (split; [reflexivity|]). reflexivity.
Qed.

(** X6. In the assembled pipeline the evaluation step reads from one step,
    the training step listed before it (its model artifacts, through the
    local [training_step]), and the condition reads from the evaluation
    step listed before it: the property file it names is the one that step
    declares, on an output, [metrics], that the step declares. *)
Theorem evaluation_and_condition_read_earlier_steps :
  exists p training evaluation condition c,
    run_body rt (supplied_globals m TensorFlow_class step_process raw step_train)
      train_split validation_split test_split frame =
      Ok (Returned (PyPipeline p)) /\
    steps p !! 1%nat = Some training /\
    steps p !! 2%nat = Some evaluation /\
    steps p !! 3%nat = Some condition /\
    step_refs evaluation = [step_name training] /\
    step_name training = "Train" /\
    step_conditions condition = [ConditionGreaterThanOrEqualTo c 0.01] /\
    jg_step c = step_name evaluation /\
    step_name evaluation = "EvaluateBERTModel" /\
    step_property_files evaluation = [jg_property_file c] /\
    pf_output_name (jg_property_file c) ∈
      (output_name <$> step_outputs evaluation).
Proof.
  eexists _, _, _, _, _. split; [apply run_body_supplied|].
  do 9 (split; [reflexivity|]). left.
Qed.

End Supplied.

(** X7. Seven names that the module imports are bound again inside the
    function, by the imports of lines 373, 383, 420 and 460-464, and are
    therefore locals of it. Only [SKLearnProcessor] is read before its
    import: from the frame that the parameter declarations leave, line 194
    raises, while lines 373-380, which read the same name after the import,
    build the evaluation processor. *)
Theorem module_names_rebound_locally (rt : Runtime) (m : ModuleState)
    (train_split validation_split test_split : Q)
    (region role default_bucket pipeline_name model_package_group_name
     base_job_prefix : string) :
  filter (fun x => x ∈ module_imports)
    (locals_of (get_pipeline_code rt train_split validation_split test_split)) =
    [ "SKLearnProcessor"; "PropertyFile"; "MetricsSource"; "ModelMetrics";
      "ConditionGreaterThanOrEqualTo"; "ConditionStep"; "JsonGet" ] /\
  let declared :=
    frame_after
      (run rt m (declare_parameters train_split validation_split test_split)
         (call_frame region role default_bucket pipeline_name
            model_package_group_name base_job_prefix)) in
  run rt m [assign_processor] declared =
    Raise (UnboundLocalError "SKLearnProcessor") /\
  value_after (run rt m build_evaluation_processor declared)
    "evaluation_processor" =
    Some (PyProcessor
            (evaluation_processor role processing_instance_type
               processing_instance_count region)).
Proof.
  split; [vm_compute; reflexivity|].
  split; vm_compute; reflexivity.
Qed.
